(** * Dio driver (Autosar/Mcal/Io/Dio.c): shallow embedding and properties

    The driver reads and writes the input-data (IDR) and output-data (ODR)
    registers of an array of port register blocks reached through the base
    pointer [DIOA].  Every service is a short sequence of register loads and
    stores combined with the bit-field helpers of [Bfx.h].

    The embedding keeps that shape: the register file is a list of blocks,
    a service is a computation in a state-and-failure monad over the register
    file, and the wrap-around of the fixed-width C types is written out. *)

From Stdlib Require Import ZArith Lia Bool.
From stdpp Require Import base list.

Local Open Scope Z_scope.

(** ** Std_Types.h: fixed-width conversions and levels *)

Module Std_Types.

(** Conversion of an integer to [uint8] (reduction modulo 2^8). *)
Definition uint8 (z : Z) : Z := z mod 2 ^ 8.

(** Conversion of an integer to [uint32] (reduction modulo 2^32). *)
Definition uint32 (z : Z) : Z := z mod 2 ^ 32.

(** The C operator [~] on a [uint32] operand. *)
Definition not_u32 (z : Z) : Z := uint32 (Z.lnot z).

(** The C operator [<<] on a [uint32] left operand. *)
Definition shl_u32 (z n : Z) : Z := uint32 (Z.shiftl z n).

Definition STD_LOW : Z := 0.
Definition STD_HIGH : Z := 1.

End Std_Types.

Import Std_Types.

(** ** Bfx.h: bit-field helpers

    A helper that takes a pointer to its data is a function from the old
    content of the pointed object to the new one. *)

Module Bfx.

(** Modelled from the spec: [Bfx_ClrBitMask_u8u8] of Bfx.h (not in the
    sources), "clear bit via mask": the bits of [Data] that are set in
    [Mask] are cleared, on 8 bits. *)
Definition Bfx_ClrBitMask_u8u8 (Data Mask : Z) : Z :=
  Z.land Data (uint8 (Z.lnot Mask)).

(** Modelled from the spec: [Bfx_ShiftBitRt_u8u8] of Bfx.h (not in the
    sources), "shift right": [Data] shifted right by [ShiftCnt]. *)
Definition Bfx_ShiftBitRt_u8u8 (Data ShiftCnt : Z) : Z :=
  Z.shiftr Data ShiftCnt.

(** Modelled from the spec: [Bfx_GetBit_u32u8_u8] of Bfx.h (not in the
    sources), "get-bit": the bit of [Data] at position [BitPn], as 0 or 1. *)
Definition Bfx_GetBit_u32u8_u8 (Data BitPn : Z) : Z :=
  Z.land (Z.shiftr Data BitPn) 1.

(** Modelled from the spec: [Bfx_PutBit_u32u8u8] of Bfx.h (not in the
    sources), "sets or clears exactly that one bit": the bit of [Data] at
    position [BitPn] is cleared when [Status] is 0 and set otherwise. *)
Definition Bfx_PutBit_u32u8u8 (Data BitPn Status : Z) : Z :=
  if Status =? 0
  then Z.land Data (not_u32 (shl_u32 1 BitPn))
  else Z.lor Data (shl_u32 1 BitPn).

(** Modelled from the spec: [Bfx_ClrBitMask_u32u32] of Bfx.h (not in the
    sources), "clear bit via mask": the bits of [Data] that are set in
    [Mask] are cleared, on 32 bits. *)
Definition Bfx_ClrBitMask_u32u32 (Data Mask : Z) : Z :=
  Z.land Data (not_u32 Mask).

(** Modelled from the spec: [Bfx_SetBitMask_u32u32] of Bfx.h (not in the
    sources), "set bit via mask": the bits of [Data] that are set in
    [Mask] are set. *)
Definition Bfx_SetBitMask_u32u32 (Data Mask : Z) : Z :=
  Z.lor Data Mask.

(** Modelled from the spec: [Bfx_ToggleBitMask_u32u32] of Bfx.h (not in the
    sources), "toggle via mask": the bits of [Data] that are set in [Mask]
    are inverted. *)
Definition Bfx_ToggleBitMask_u32u32 (Data Mask : Z) : Z :=
  Z.lxor Data Mask.

(** Modelled from the spec: [Bfx_ShiftBitRt_u32u8] of Bfx.h (not in the
    sources), "shift right": [Data] shifted right by [ShiftCnt]. *)
Definition Bfx_ShiftBitRt_u32u8 (Data ShiftCnt : Z) : Z :=
  Z.shiftr Data ShiftCnt.

(** Modelled from the spec: [Bfx_ShiftBitLt_u32u8] of Bfx.h (not in the
    sources), "shift left": [Data] shifted left by [ShiftCnt], the bits
    leaving the 32-bit word being lost. *)
Definition Bfx_ShiftBitLt_u32u8 (Data ShiftCnt : Z) : Z :=
  shl_u32 Data ShiftCnt.

(** Modelled from the spec: [Bfx_PutBitsMask_u32u32u32] of Bfx.h (not in
    the sources), "masked-put (set bits of a value only where a mask is
    1)": where [Mask] is 1 the bit of [Pattern] is taken, elsewhere the bit
    of [Data] is kept. *)
Definition Bfx_PutBitsMask_u32u32u32 (Data Pattern Mask : Z) : Z :=
  Z.lor (Z.land Data (not_u32 Mask)) (Z.land Pattern Mask).

End Bfx.

Import Bfx.

(** ** Registers.h: the port register blocks *)

Module Registers.

(** Modelled from the spec: [Dio_RegisterType] of Registers.h (not in the
    sources), of which the driver uses the input-data and the output-data
    register, both accessed as 32-bit words. *)
Record Dio_RegisterType : Type := mkRegs { IDR : Z; ODR : Z }.

(** The block [r] with its output-data register set to [v]. *)
Definition with_ODR (r : Dio_RegisterType) (v : Z) : Dio_RegisterType :=
  {| IDR := IDR r; ODR := v |}.

(** The block [r] with its input-data register set to [v]. *)
Definition with_IDR (r : Dio_RegisterType) (v : Z) : Dio_RegisterType :=
  {| IDR := v; ODR := ODR r |}.

(** The register file: the blocks of port A, port B, ... in order. *)
Abbreviation RegisterFile := (list Dio_RegisterType).

(** [DiosBaseAddrs[ Port ]]: the block of a port.  An index that is not
    the index of a block has no defined access. *)
Definition DiosBaseAddrs (s : RegisterFile) (Port : Z)
  : option Dio_RegisterType :=
  if Z.leb 0 Port then s !! Z.to_nat Port else None.

End Registers.

Import Registers.

(** ** Dio.h and Dio.c

    The types of Dio.h are read off their uses in Dio.c: a channel and a port
    identifier are 8-bit (they initialise [uint8] variables that go to the
    [_u8u8] helpers), a level is 0 or 1, and a port level is a 32-bit word
    (the address of a port level goes to the [_u32] helpers).  Values are
    integers, and the conversions and operators that can wrap are written
    with [uint8], [not_u32] and [shl_u32]. *)

Module Dio.

(** Modelled from the spec: [Dio_ChannelGroupType] of Dio.h (not in the
    sources), a descriptor with the fields [Mask], [Offset] and [Port]; the
    address of [Mask]-sized data is handed to the 32-bit helpers, and
    [Offset] and [Port] are 8-bit. *)
Record Dio_ChannelGroupType : Type :=
  mkGroup { Mask : Z; Offset : Z; Port : Z }.

(** A service: from the register file to a result and the register file
    after the call, or to nothing when a block is accessed that does not
    exist. *)
Definition DioM (A : Type) : Type := RegisterFile -> option (A * RegisterFile).

Definition ret {A : Type} (a : A) : DioM A := fun s => Some (a, s).

Definition bind {A B : Type} (m : DioM A) (k : A -> DioM B) : DioM B :=
  fun s => match m s with
           | Some (a, s') => k a s'
           | None => None
           end.

Definition seq {A B : Type} (m : DioM A) (k : DioM B) : DioM B :=
  bind m (fun _ => k).

(** Load of [DiosBaseAddrs[ Port ].IDR]. *)
Definition load_IDR (Port : Z) : DioM Z :=
  fun s => match DiosBaseAddrs s Port with
           | Some r => Some (IDR r, s)
           | None => None
           end.

(** Load of [DiosBaseAddrs[ Port ].ODR]. *)
Definition load_ODR (Port : Z) : DioM Z :=
  fun s => match DiosBaseAddrs s Port with
           | Some r => Some (ODR r, s)
           | None => None
           end.

(** Store to [DiosBaseAddrs[ Port ].ODR]. *)
Definition store_ODR (Port v : Z) : DioM unit :=
  fun s => match DiosBaseAddrs s Port with
           | Some r => Some (tt, <[Z.to_nat Port := with_ODR r v]> s)
           | None => None
           end.

(** A helper called on the address of [DiosBaseAddrs[ Port ].ODR], taken as
    a pointer to a 32-bit word: the register is loaded, the helper applied
    and the result stored. *)
Definition update_ODR (Port : Z) (f : Z -> Z) : DioM unit :=
  bind (load_ODR Port) (fun v => store_ODR Port (f v)).

(** [Dio_ReadChannel] *)
Definition Dio_ReadChannel (ChannelId : Z) : DioM Z :=
  let Port := uint8 ChannelId in
  let Pin := uint8 ChannelId in
  let Pin := Bfx_ClrBitMask_u8u8 Pin 0xf0 in
  let Port := Bfx_ShiftBitRt_u8u8 Port 4 in
  bind (load_IDR Port) (fun idr => ret (Bfx_GetBit_u32u8_u8 idr Pin)).

(** [Dio_WriteChannel] *)
Definition Dio_WriteChannel (ChannelId Level : Z) : DioM unit :=
  let Port := uint8 ChannelId in
  let Pin := uint8 ChannelId in
  let Pin := Bfx_ClrBitMask_u8u8 Pin 0xf0 in
  let Port := Bfx_ShiftBitRt_u8u8 Port 4 in
  update_ODR Port (fun odr => Bfx_PutBit_u32u8u8 odr Pin Level).

(** [Dio_ReadPort] *)
Definition Dio_ReadPort (PortId : Z) : DioM Z :=
  load_IDR PortId.

(** [Dio_WritePort] *)
Definition Dio_WritePort (PortId Level : Z) : DioM unit :=
  store_ODR PortId Level.

(** [Dio_ReadChannelGroup] *)
Definition Dio_ReadChannelGroup (ChannelGroupIdPtr : Dio_ChannelGroupType)
  : DioM Z :=
  bind (load_IDR (Port ChannelGroupIdPtr)) (fun GroupValue =>
    let GroupValue :=
      Bfx_ClrBitMask_u32u32 GroupValue (not_u32 (Mask ChannelGroupIdPtr)) in
    let GroupValue :=
      Bfx_ShiftBitRt_u32u8 GroupValue (Offset ChannelGroupIdPtr) in
    ret GroupValue).

(** [Dio_WriteChannelGroup] *)
Definition Dio_WriteChannelGroup (ChannelGroupIdPtr : Dio_ChannelGroupType)
  (Level : Z) : DioM unit :=
  seq (update_ODR (Port ChannelGroupIdPtr)
         (fun odr => Bfx_ClrBitMask_u32u32 odr (Mask ChannelGroupIdPtr)))
      (let Level := Bfx_ShiftBitLt_u32u8 Level (Offset ChannelGroupIdPtr) in
       update_ODR (Port ChannelGroupIdPtr)
         (fun odr => Bfx_SetBitMask_u32u32 odr Level)).

(** [Dio_FlipChannel] *)
Definition Dio_FlipChannel (ChannelId : Z) : DioM Z :=
  let Port := uint8 ChannelId in
  let Pin := uint8 ChannelId in
  let Pin := Bfx_ClrBitMask_u8u8 Pin 0xf0 in
  let Port := Bfx_ShiftBitRt_u8u8 Port 4 in
  seq (update_ODR Port
         (fun odr => Bfx_ToggleBitMask_u32u32 odr (shl_u32 1 Pin)))
      (bind (load_IDR Port) (fun idr => ret (Bfx_GetBit_u32u8_u8 idr Pin))).

(** [Dio_MaskedWritePort] *)
Definition Dio_MaskedWritePort (PortId Level Mask : Z) : DioM unit :=
  update_ODR PortId (fun odr => Bfx_PutBitsMask_u32u32u32 odr Level Mask).

End Dio.

Import Dio.

(** ** The pins behind the registers *)

Module Hw.

(** Modelled from the spec: the hardware behind the register map, for a
    port whose pins are driven by the driver: the input-data register
    "reflects the electrical level currently measured on each pin" and the
    output-data register "drives the electrical level", so the input-data
    register takes the content of the output-data register. *)
Definition PinsFollowOutput (Port : Z) : DioM unit :=
  fun s => match DiosBaseAddrs s Port with
           | Some r => Some (tt, <[Z.to_nat Port := with_IDR r (ODR r)]> s)
           | None => None
           end.

End Hw.

(** ** Vocabulary of the properties *)

(** The pin of a channel identifier: its low nibble. *)
Definition channel_pin (ChannelId : Z) : Z := Z.land ChannelId 0x0F.

(** The port of a channel identifier: the bits above the low nibble. *)
Definition channel_port (ChannelId : Z) : Z := Z.shiftr ChannelId 4.

(** A value of the 8-bit type of channel and port identifiers. *)
Definition is_u8 (z : Z) : Prop := 0 <= z < 2 ^ 8.

(** A value of the 32-bit type of masks and port levels. *)
Definition is_u32 (z : Z) : Prop := 0 <= z < 2 ^ 32.

(** The descriptor of the driver's documentation: eight bits, offset 2. *)
Definition LedBar (p : Z) : Dio_ChannelGroupType :=
  {| Mask := 0x00ff; Offset := 2; Port := p |}.

(** The same group with its mask given in place: the eight bits 2..9. *)
Definition LedBarInPlace (p : Z) : Dio_ChannelGroupType :=
  {| Mask := 0x03fc; Offset := 2; Port := p |}.

(** A channel group is written, the pins follow, and the group is read. *)
Definition write_read_group (g : Dio_ChannelGroupType) (v : Z) : DioM Z :=
  seq (Dio_WriteChannelGroup g v)
      (seq (Hw.PinsFollowOutput (Port g)) (Dio_ReadChannelGroup g)).

(** A port is written, the pins follow, and the port is read. *)
Definition write_read_port (p v : Z) : DioM Z :=
  seq (Dio_WritePort p v) (seq (Hw.PinsFollowOutput p) (Dio_ReadPort p)).

(** A channel is driven high, the pins follow, and the channel and its port
    are read. *)
Definition write_high_read (c : Z) : DioM (Z * Z) :=
  seq (Dio_WriteChannel c STD_HIGH)
      (seq (Hw.PinsFollowOutput (channel_port c))
           (bind (Dio_ReadChannel c) (fun lvl =>
              bind (Dio_ReadPort (channel_port c)) (fun pl => ret (lvl, pl))))).

(** A register file with the single block of port A. *)
Definition port_A (idr odr : Z) : RegisterFile := [ {| IDR := idr; ODR := odr |} ].

(** The frame property of a group write as the specification words it: the
    bits outside [Mask << Offset] keep their value. *)
Definition group_write_frame_shifted : Prop :=
  forall (g : Dio_ChannelGroupType) (v : Z) (s s' : RegisterFile)
         (r r' : Dio_RegisterType) (i : Z),
    is_u32 (Mask g) -> is_u8 (Offset g) -> is_u8 (Port g) -> is_u32 v ->
    DiosBaseAddrs s (Port g) = Some r ->
    Dio_WriteChannelGroup g v s = Some (tt, s') ->
    DiosBaseAddrs s' (Port g) = Some r' ->
    0 <= i < 32 ->
    Z.testbit (shl_u32 (Mask g) (Offset g)) i = false ->
    Z.testbit (ODR r') i = Z.testbit (ODR r) i.

(** The round trip of the documentation's group as the specification words
    it: 0x55 is written and 0x55 is read back. *)
Definition group_round_trip_0x55 : Prop :=
  forall (p : Z) (s : RegisterFile) (r : Dio_RegisterType),
    DiosBaseAddrs s p = Some r ->
    exists s', write_read_group (LedBar p) 0x55 s = Some (0x55, s').

(** ** Vocabulary of the further properties *)

(** A level is written to a channel, the pins follow, and the channel is
    read. *)
Definition write_level_read (c lvl : Z) : DioM Z :=
  seq (Dio_WriteChannel c lvl)
      (seq (Hw.PinsFollowOutput (channel_port c)) (Dio_ReadChannel c)).

(** A channel is flipped, the pins follow, and the channel is read. *)
Definition flip_read (c : Z) : DioM Z :=
  seq (Dio_FlipChannel c)
      (seq (Hw.PinsFollowOutput (channel_port c)) (Dio_ReadChannel c)).

(** A call of one of the five services that store to a register. *)
Inductive Dio_write : Type :=
| Call_WriteChannel (ChannelId Level : Z)
| Call_WritePort (PortId Level : Z)
| Call_WriteChannelGroup (ChannelGroupIdPtr : Dio_ChannelGroupType) (Level : Z)
| Call_FlipChannel (ChannelId : Z)
| Call_MaskedWritePort (PortId Level Mask : Z).

(** The call, run for its effect on the registers. *)
Definition run_write (w : Dio_write) : DioM unit :=
  match w with
  | Call_WriteChannel c lvl => Dio_WriteChannel c lvl
  | Call_WritePort p v => Dio_WritePort p v
  | Call_WriteChannelGroup g v => Dio_WriteChannelGroup g v
  | Call_FlipChannel c => bind (Dio_FlipChannel c) (fun _ => ret tt)
  | Call_MaskedWritePort p v m => Dio_MaskedWritePort p v m
  end.

(** The port whose block the call indexes. *)
Definition target_port (w : Dio_write) : Z :=
  match w with
  | Call_WriteChannel c _ | Call_FlipChannel c => channel_port c
  | Call_WritePort p _ | Call_MaskedWritePort p _ _ => p
  | Call_WriteChannelGroup g _ => Port g
  end.

(** The arguments of the call are values of their C types. *)
Definition typed_call (w : Dio_write) : Prop :=
  match w with
  | Call_WriteChannel c lvl => is_u8 c /\ is_u8 lvl
  | Call_WritePort p v => is_u8 p /\ is_u32 v
  | Call_WriteChannelGroup g v =>
      is_u32 (Mask g) /\ is_u8 (Offset g) /\ is_u8 (Port g) /\ is_u32 v
  | Call_FlipChannel c => is_u8 c
  | Call_MaskedWritePort p v m => is_u8 p /\ is_u32 v /\ is_u32 m
  end.

(** Two register files that differ at most in the output-data register of
    port [p]: the same number of blocks, the same blocks at the other ports
    and the same input-data register at [p]. *)
Definition only_ODR_of (p : Z) (s s' : RegisterFile) : Prop :=
  length s' = length s
  /\ (forall q, q <> p -> DiosBaseAddrs s' q = DiosBaseAddrs s q)
  /\ IDR <$> DiosBaseAddrs s' p = IDR <$> DiosBaseAddrs s p.

(** Every register of the file holds a 32-bit value. *)
Definition registers_u32 (s : RegisterFile) : Prop :=
  forall q r, DiosBaseAddrs s q = Some r -> is_u32 (IDR r) /\ is_u32 (ODR r).

(** The shifted level of a group write has no bit outside the mask. *)
Definition level_fits (g : Dio_ChannelGroupType) (v : Z) : Prop :=
  forall i, 0 <= i < 32 ->
            Z.testbit (Bfx_ShiftBitLt_u32u8 v (Offset g)) i = true ->
            Z.testbit (Mask g) i = true.

(** The group that covers a whole port. *)
Definition whole_port (p : Z) : Dio_ChannelGroupType :=
  {| Mask := 0xFFFFFFFF; Offset := 0; Port := p |}.

(** A register file of [n] blocks with all registers at zero. *)
Definition zero_ports (n : nat) : RegisterFile :=
  replicate n {| IDR := 0; ODR := 0 |}.

(** ** Bits of the fixed-width operations *)

Section Bits.

Lemma uint8_id (z : Z) : is_u8 z -> uint8 z = z.
Proof. intros Hz. unfold uint8. apply Z.mod_small. exact Hz. Qed.

Lemma uint32_id (z : Z) : is_u32 z -> uint32 z = z.
Proof. intros Hz. unfold uint32. apply Z.mod_small. exact Hz. Qed.

Lemma testbit_uint32_low (z i : Z) :
  i < 32 -> Z.testbit (uint32 z) i = Z.testbit z i.
Proof. intros Hi. unfold uint32. now apply Z.mod_pow2_bits_low. Qed.

Lemma testbit_uint32_high (z i : Z) :
  32 <= i -> Z.testbit (uint32 z) i = false.
Proof. intros Hi. unfold uint32. apply Z.mod_pow2_bits_high. lia. Qed.

Lemma testbit_u32_high (z i : Z) :
  is_u32 z -> 32 <= i -> Z.testbit z i = false.
Proof.
  intros Hz Hi. rewrite <- (uint32_id z Hz). now apply testbit_uint32_high.
Qed.

Lemma testbit_not_u32 (z i : Z) :
  0 <= i < 32 -> Z.testbit (not_u32 z) i = negb (Z.testbit z i).
Proof.
  intros Hi. unfold not_u32. rewrite testbit_uint32_low by lia.
  apply Z.lnot_spec. lia.
Qed.

Lemma testbit_shl_u32 (z n i : Z) :
  0 <= n -> 0 <= i < 32 ->
  Z.testbit (shl_u32 z n) i = Z.testbit z (i - n).
Proof.
  intros Hn Hi. unfold shl_u32. rewrite testbit_uint32_low by lia.
  apply Z.shiftl_spec. lia.
Qed.

Lemma shl_u32_one (n : Z) : 0 <= n < 32 -> shl_u32 1 n = 2 ^ n.
Proof.
  intros Hn. unfold shl_u32. rewrite Z.shiftl_1_l.
  apply uint32_id. unfold is_u32. split.
  - apply Z.pow_nonneg. lia.
  - apply Z.pow_lt_mono_r; lia.
Qed.

Lemma not_not_u32 (z : Z) : is_u32 z -> not_u32 (not_u32 z) = z.
Proof.
  intros Hz. apply Z.bits_inj'. intros i Hi.
  destruct (Z_lt_ge_dec i 32) as [Hlt | Hge].
  - rewrite !testbit_not_u32 by lia. apply negb_involutive.
  - unfold not_u32 at 1. rewrite testbit_uint32_high by lia.
    symmetry. apply testbit_u32_high; [exact Hz | lia].
Qed.

Lemma GetBit_testbit (d n : Z) :
  0 <= n -> Bfx_GetBit_u32u8_u8 d n = Z.b2z (Z.testbit d n).
Proof.
  intros Hn. unfold Bfx_GetBit_u32u8_u8.
  change 1 with (Z.ones 1). rewrite Z.land_ones by lia.
  rewrite Z.shiftr_div_pow2 by lia. change (2 ^ 1) with 2.
  symmetry. now apply Z.testbit_spec'.
Qed.

Lemma channel_pin_range (c : Z) : 0 <= channel_pin c < 16.
Proof.
  unfold channel_pin. change 0x0F with (Z.ones 4).
  rewrite Z.land_ones by lia. apply Z.mod_pos_bound. lia.
Qed.

Lemma channel_port_range (c : Z) : is_u8 c -> 0 <= channel_port c < 16.
Proof.
  unfold is_u8, channel_port. intros Hc.
  rewrite Z.shiftr_div_pow2 by lia. change (2 ^ 4) with 16.
  change (2 ^ 8) with 256 in Hc. split.
  - apply Z.div_pos; lia.
  - apply Z.div_lt_upper_bound; lia.
Qed.

(** The two helper calls that open the channel services. *)
Lemma Pin_of_ChannelId (c : Z) :
  Bfx_ClrBitMask_u8u8 (uint8 c) 0xf0 = channel_pin c.
Proof.
  unfold Bfx_ClrBitMask_u8u8, channel_pin, uint8.
  change (Z.lnot 0xf0 mod 2 ^ 8) with 0x0F.
  rewrite <- Z.land_ones by lia.
  rewrite <- Z.land_assoc. reflexivity.
Qed.

Lemma Port_of_ChannelId (c : Z) :
  is_u8 c -> Bfx_ShiftBitRt_u8u8 (uint8 c) 4 = channel_port c.
Proof.
  intros Hc. unfold Bfx_ShiftBitRt_u8u8, channel_port.
  now rewrite uint8_id.
Qed.

End Bits.

(** ** Running the register accesses *)

Section Accesses.

Implicit Types (s : RegisterFile) (r : Dio_RegisterType).

Lemma DiosBaseAddrs_Some s p r :
  DiosBaseAddrs s p = Some r -> 0 <= p /\ s !! Z.to_nat p = Some r.
Proof.
  unfold DiosBaseAddrs. destruct (Z.leb_spec 0 p); [auto | discriminate].
Qed.

Lemma DiosBaseAddrs_insert s p r r' :
  DiosBaseAddrs s p = Some r ->
  DiosBaseAddrs (<[Z.to_nat p := r']> s) p = Some r'.
Proof.
  intros H. destruct (DiosBaseAddrs_Some _ _ _ H) as [Hp Hl].
  unfold DiosBaseAddrs. destruct (Z.leb_spec 0 p); [| lia].
  apply list_lookup_insert_eq. eapply lookup_lt_Some; eauto.
Qed.

Lemma DiosBaseAddrs_insert_other s p q r' :
  0 <= p -> p <> q ->
  DiosBaseAddrs (<[Z.to_nat p := r']> s) q = DiosBaseAddrs s q.
Proof.
  intros Hp Hne. unfold DiosBaseAddrs.
  destruct (Z.leb_spec 0 q); [| reflexivity].
  apply list_lookup_insert_ne. lia.
Qed.

Lemma load_IDR_run s p r :
  DiosBaseAddrs s p = Some r -> load_IDR p s = Some (IDR r, s).
Proof. intros H. unfold load_IDR. now rewrite H. Qed.

Lemma store_ODR_run s p r v :
  DiosBaseAddrs s p = Some r ->
  store_ODR p v s = Some (tt, <[Z.to_nat p := with_ODR r v]> s).
Proof. intros H. unfold store_ODR. now rewrite H. Qed.

Lemma update_ODR_run s p r f :
  DiosBaseAddrs s p = Some r ->
  update_ODR p f s = Some (tt, <[Z.to_nat p := with_ODR r (f (ODR r))]> s).
Proof.
  intros H. unfold update_ODR, bind, load_ODR. rewrite H.
  now apply store_ODR_run.
Qed.

Lemma PinsFollowOutput_run s p r :
  DiosBaseAddrs s p = Some r ->
  Hw.PinsFollowOutput p s
  = Some (tt, <[Z.to_nat p := with_IDR r (ODR r)]> s).
Proof. intros H. unfold Hw.PinsFollowOutput. now rewrite H. Qed.

(** A read never stores. *)
Lemma load_IDR_pure s s' p v : load_IDR p s = Some (v, s') -> s' = s.
Proof.
  unfold load_IDR. destruct (DiosBaseAddrs s p); [| discriminate].
  intros [= _ <-]. reflexivity.
Qed.

End Accesses.

(** ** Running the services *)

Section Services.

Implicit Types (s : RegisterFile) (r : Dio_RegisterType).

Lemma Dio_ReadChannel_run s c r :
  is_u8 c -> DiosBaseAddrs s (channel_port c) = Some r ->
  Dio_ReadChannel c s
  = Some (Z.b2z (Z.testbit (IDR r) (channel_pin c)), s).
Proof.
  intros Hc Hr. unfold Dio_ReadChannel.
  rewrite Pin_of_ChannelId, Port_of_ChannelId by exact Hc.
  unfold bind. rewrite (load_IDR_run _ _ _ Hr). unfold ret.
  rewrite GetBit_testbit by apply channel_pin_range. reflexivity.
Qed.

Lemma Dio_WriteChannel_run s c lvl r :
  is_u8 c -> DiosBaseAddrs s (channel_port c) = Some r ->
  Dio_WriteChannel c lvl s
  = Some (tt, <[Z.to_nat (channel_port c) :=
                  with_ODR r (Bfx_PutBit_u32u8u8 (ODR r) (channel_pin c) lvl)]> s).
Proof.
  intros Hc Hr. unfold Dio_WriteChannel.
  rewrite Pin_of_ChannelId, Port_of_ChannelId by exact Hc.
  now apply update_ODR_run.
Qed.

Lemma Dio_FlipChannel_run s c r :
  is_u8 c -> DiosBaseAddrs s (channel_port c) = Some r ->
  Dio_FlipChannel c s
  = Some (Z.b2z (Z.testbit (IDR r) (channel_pin c)),
          <[Z.to_nat (channel_port c) :=
              with_ODR r (Z.lxor (ODR r) (2 ^ channel_pin c))]> s).
Proof.
  intros Hc Hr. unfold Dio_FlipChannel.
  rewrite Pin_of_ChannelId, Port_of_ChannelId by exact Hc.
  pose proof (channel_pin_range c) as Hpin.
  unfold seq, bind at 1.
  rewrite (update_ODR_run _ _ _ _ Hr).
  unfold bind.
  rewrite (load_IDR_run _ _ _ (DiosBaseAddrs_insert _ _ _ _ Hr)).
  unfold ret, Bfx_ToggleBitMask_u32u32.
  rewrite GetBit_testbit by lia. rewrite shl_u32_one by lia.
  reflexivity.
Qed.

Lemma Dio_WriteChannelGroup_run s g v r :
  DiosBaseAddrs s (Port g) = Some r ->
  Dio_WriteChannelGroup g v s
  = Some (tt, <[Z.to_nat (Port g) :=
                  with_ODR r (Z.lor (Z.land (ODR r) (not_u32 (Mask g)))
                                    (shl_u32 v (Offset g)))]> s).
Proof.
  intros Hr. unfold Dio_WriteChannelGroup, seq, bind at 1.
  rewrite (update_ODR_run _ _ _ _ Hr).
  rewrite (update_ODR_run _ _ _ _ (DiosBaseAddrs_insert _ _ _ _ Hr)).
  rewrite list_insert_insert_eq. reflexivity.
Qed.

Lemma Dio_ReadChannelGroup_run s g r :
  DiosBaseAddrs s (Port g) = Some r ->
  Dio_ReadChannelGroup g s
  = Some (Z.shiftr (Z.land (IDR r) (not_u32 (not_u32 (Mask g)))) (Offset g), s).
Proof.
  intros Hr. unfold Dio_ReadChannelGroup, bind.
  now rewrite (load_IDR_run _ _ _ Hr).
Qed.

Lemma write_read_group_run s g v r :
  DiosBaseAddrs s (Port g) = Some r ->
  let odr := Z.lor (Z.land (ODR r) (not_u32 (Mask g))) (shl_u32 v (Offset g)) in
  write_read_group g v s
  = Some (Z.shiftr (Z.land odr (not_u32 (not_u32 (Mask g)))) (Offset g),
          <[Z.to_nat (Port g) := {| IDR := odr; ODR := odr |}]> s).
Proof.
  intros Hr odr. unfold write_read_group, seq, bind at 1.
  rewrite (Dio_WriteChannelGroup_run _ _ _ _ Hr). fold odr.
  pose proof (DiosBaseAddrs_insert _ _ _ (with_ODR r odr) Hr) as Hr1.
  unfold bind at 1. rewrite (PinsFollowOutput_run _ _ _ Hr1).
  rewrite list_insert_insert_eq.
  pose proof (DiosBaseAddrs_insert _ _ _
                (with_IDR (with_ODR r odr) (ODR (with_ODR r odr))) Hr) as Hr2.
  rewrite (Dio_ReadChannelGroup_run _ _ _ Hr2). reflexivity.
Qed.

End Services.

(** ** Bits written by the helpers *)

Section WrittenBits.

Lemma pow2_testbit (n i : Z) :
  0 <= n -> Z.testbit (2 ^ n) i = (i =? n).
Proof. intros Hn. rewrite Z.pow2_bits_eqb by exact Hn. apply Z.eqb_sym. Qed.

Lemma PutBit_high_testbit (o n i : Z) :
  0 <= n < 32 ->
  Z.testbit (Bfx_PutBit_u32u8u8 o n STD_HIGH) i
  = if i =? n then true else Z.testbit o i.
Proof.
  intros Hn. unfold Bfx_PutBit_u32u8u8, STD_HIGH. simpl (1 =? 0).
  cbv iota. rewrite shl_u32_one by exact Hn.
  rewrite Z.lor_spec, pow2_testbit by lia.
  destruct (i =? n); [apply orb_true_r | apply orb_false_r].
Qed.

Lemma PutBit_low_testbit (o n i : Z) :
  0 <= n < 32 -> 0 <= i < 32 ->
  Z.testbit (Bfx_PutBit_u32u8u8 o n STD_LOW) i
  = if i =? n then false else Z.testbit o i.
Proof.
  intros Hn Hi. unfold Bfx_PutBit_u32u8u8, STD_LOW. simpl (0 =? 0).
  cbv iota. rewrite shl_u32_one by exact Hn.
  rewrite Z.land_spec, testbit_not_u32, pow2_testbit by lia.
  destruct (i =? n); [apply andb_false_r | apply andb_true_r].
Qed.

Lemma Toggle_testbit (o n i : Z) :
  0 <= n ->
  Z.testbit (Z.lxor o (2 ^ n)) i
  = if i =? n then negb (Z.testbit o i) else Z.testbit o i.
Proof.
  intros Hn. rewrite Z.lxor_spec, pow2_testbit by exact Hn.
  destruct (i =? n); [apply xorb_true_r | apply xorb_false_r].
Qed.

Lemma Toggle_twice (o m : Z) : Z.lxor (Z.lxor o m) m = o.
Proof. now rewrite Z.lxor_assoc, Z.lxor_nilpotent, Z.lxor_0_r. Qed.

Lemma PutBitsMask_testbit (o v m i : Z) :
  0 <= i < 32 ->
  Z.testbit (Bfx_PutBitsMask_u32u32u32 o v m) i
  = if Z.testbit m i then Z.testbit v i else Z.testbit o i.
Proof.
  intros Hi. unfold Bfx_PutBitsMask_u32u32u32.
  rewrite Z.lor_spec, !Z.land_spec, testbit_not_u32 by exact Hi.
  now destruct (Z.testbit m i), (Z.testbit o i), (Z.testbit v i).
Qed.

(** What a group read sees of a group write: the cleared register bits are
    exactly the bits the read keeps, so only the shifted level shows. *)
Lemma group_read_of_written (o m k : Z) :
  is_u32 m ->
  Z.land (Z.lor (Z.land o (not_u32 m)) k) (not_u32 (not_u32 m)) = Z.land k m.
Proof.
  intros Hm. rewrite (not_not_u32 m Hm).
  apply Z.bits_inj'. intros i Hi.
  rewrite !Z.land_spec, Z.lor_spec, Z.land_spec.
  destruct (Z_lt_ge_dec i 32) as [Hlt | Hge].
  - rewrite testbit_not_u32 by lia.
    now destruct (Z.testbit m i), (Z.testbit o i), (Z.testbit k i).
  - rewrite (testbit_u32_high m i Hm) by lia. now rewrite !andb_false_r.
Qed.

End WrittenBits.

(** ** Channel groups *)

Section ChannelGroups.

Implicit Types (s : RegisterFile) (r : Dio_RegisterType).

(** C3: when the output-data register of port [p] is 0x0000, writing 0x55 to
    the group [{Mask = 0x00FF; Offset = 2; Port = p}] leaves that register
    equal to 0x0154, and no other register is touched. *)
Theorem WriteChannelGroup_LedBar_from_zero p s r :
  DiosBaseAddrs s p = Some r ->
  ODR r = 0x0000 ->
  Dio_WriteChannelGroup (LedBar p) 0x55 s
  = Some (tt, <[Z.to_nat p := with_ODR r 0x0154]> s).
Proof.
  intros Hr Hz.
  rewrite (Dio_WriteChannelGroup_run s (LedBar p) 0x55 r Hr).
  rewrite Hz. reflexivity.
Qed.

Lemma WriteChannelGroup_LedBar_from_zero_witness :
  Dio_WriteChannelGroup (LedBar 0) 0x55 (port_A 0x0000 0x0000)
  = Some (tt, port_A 0x0000 0x0154).
Proof.
  apply (WriteChannelGroup_LedBar_from_zero 0 (port_A 0 0) (mkRegs 0 0));
    reflexivity.
Defined.

(** C1, as stated, fails: with [Mask = 0x00FF] and [Offset = 2] the read
    masks the register with 0x00FF before it shifts, so of the written
    0x0154 it returns 0x15 and not 0x55. *)
Lemma group_round_trip_0x55_fails : ~ group_round_trip_0x55.
Proof.
  intros H.
  destruct (H 0 (port_A 0 0) (mkRegs 0 0) eq_refl) as [s' Hs'].
  vm_compute in Hs'. discriminate Hs'.
Qed.

(** C1, amended: with the mask of the group given in place ([Mask = 0x03FC],
    [Offset = 2]) writing 0x55 and reading the group back, the pins following
    the output register, returns 0x55; with [Mask = 0x00FF] and [Offset = 2]
    the read returns 0x15. *)
Theorem group_round_trip_in_place p s r :
  DiosBaseAddrs s p = Some r ->
  (exists s', write_read_group (LedBarInPlace p) 0x55 s = Some (0x55, s'))
  /\ (exists s', write_read_group (LedBar p) 0x55 s = Some (0x15, s')).
Proof.
  intros Hr. split.
  - pose proof (write_read_group_run s (LedBarInPlace p) 0x55 r Hr) as Hrun.
    cbv zeta in Hrun. rewrite group_read_of_written in Hrun
      by (unfold is_u32; simpl; lia).
    eexists. exact Hrun.
  - pose proof (write_read_group_run s (LedBar p) 0x55 r Hr) as Hrun.
    cbv zeta in Hrun. rewrite group_read_of_written in Hrun
      by (unfold is_u32; simpl; lia).
    eexists. exact Hrun.
Qed.

Lemma group_round_trip_in_place_witness :
  (exists s', write_read_group (LedBarInPlace 0) 0x55 (port_A 0 0xF003)
              = Some (0x55, s'))
  /\ (exists s', write_read_group (LedBar 0) 0x55 (port_A 0 0xF003)
                 = Some (0x15, s')).
Proof.
  apply (group_round_trip_in_place 0 (port_A 0 0xF003) (mkRegs 0 0xF003)).
  reflexivity.
Defined.

(** C2, as stated, fails: the write clears the bits of [Mask] itself, not of
    [Mask << Offset]; with [Mask = 0x00FF], [Offset = 2], level 0 and an
    output register 0x0003, bit 0 is outside 0x03FC and is cleared. *)
Lemma group_write_frame_shifted_fails : ~ group_write_frame_shifted.
Proof.
  intros H.
  specialize (H (LedBar 0) 0 (port_A 0 0x0003) (port_A 0 0x0000)
                (mkRegs 0 0x0003) (mkRegs 0 0x0000) 0).
  assert (Hbit : Z.testbit 0x0000 0 = Z.testbit 0x0003 0).
  { apply H; try reflexivity; unfold is_u32, is_u8; simpl; lia. }
  discriminate Hbit.
Qed.

(** C2, amended: for every descriptor and every level whose shifted form
    [Level << Offset] has no bit outside [Mask], the write changes only bits
    of the port's output-data register that are set in [Mask] (taken in
    place, not shifted by [Offset]): every bit outside [Mask] keeps its
    value, and so do the input-data register and all other ports. *)
Theorem WriteChannelGroup_frame g v s r :
  DiosBaseAddrs s (Port g) = Some r ->
  (forall i, 0 <= i < 32 ->
             Z.testbit (Bfx_ShiftBitLt_u32u8 v (Offset g)) i = true ->
             Z.testbit (Mask g) i = true) ->
  exists r',
    Dio_WriteChannelGroup g v s = Some (tt, <[Z.to_nat (Port g) := r']> s)
    /\ IDR r' = IDR r
    /\ forall i, 0 <= i < 32 -> Z.testbit (Mask g) i = false ->
                 Z.testbit (ODR r') i = Z.testbit (ODR r) i.
Proof.
  intros Hr Hfit. eexists. split; [| split].
  - exact (Dio_WriteChannelGroup_run s g v r Hr).
  - reflexivity.
  - intros i Hi Hm. simpl.
    rewrite Z.lor_spec, Z.land_spec, testbit_not_u32, Hm by exact Hi.
    specialize (Hfit i Hi). unfold Bfx_ShiftBitLt_u32u8 in Hfit.
    destruct (Z.testbit (shl_u32 v (Offset g)) i).
    + rewrite Hfit in Hm by reflexivity. discriminate Hm.
    + now destruct (Z.testbit (ODR r) i).
Qed.

Lemma WriteChannelGroup_frame_witness :
  exists r',
    Dio_WriteChannelGroup (LedBarInPlace 0) 0x55 (port_A 0 0xF003)
    = Some (tt, <[Z.to_nat 0 := r']> (port_A 0 0xF003))
    /\ IDR r' = 0
    /\ forall i, 0 <= i < 32 -> Z.testbit 0x03fc i = false ->
                 Z.testbit (ODR r') i = Z.testbit 0xF003 i.
Proof.
  apply (WriteChannelGroup_frame (LedBarInPlace 0) 0x55
           (port_A 0 0xF003) (mkRegs 0 0xF003)).
  - reflexivity.
  - intros i Hi.
    assert (Hcases : i = 0 \/ i = 1 \/ i = 2 \/ i = 3 \/ i = 4 \/ i = 5
                     \/ i = 6 \/ i = 7 \/ i = 8 \/ i = 9 \/ 10 <= i < 32)
      by lia.
    repeat (destruct Hcases as [-> | Hcases]; [vm_compute; auto |]).
    change (Bfx_ShiftBitLt_u32u8 0x55 (Offset (LedBarInPlace 0))) with 0x154.
    intros Hb. exfalso.
    assert (Hhigh : Z.testbit 0x154 i = false).
    { apply (Z.bits_above_log2 0x154 i); [lia |].
      change (Z.log2 0x154) with 8. lia. }
    rewrite Hhigh in Hb. discriminate Hb.
Defined.

(** The shifted level is ORed into the register as it is: a level wider than
    the group reaches bits outside [Mask]. *)
Example WriteChannelGroup_level_not_masked :
  Dio_WriteChannelGroup {| Mask := 0x000f; Offset := 0; Port := 0 |} 0x01ff
    (port_A 0 0x0000)
  = Some (tt, port_A 0 0x01ff).
Proof. reflexivity. Qed.

(** C9: for every descriptor [g], [Dio_ReadChannelGroup] returns the
    input-data register of port [Port g] masked with [Mask g] and then
    shifted right by [Offset g]; the mask is applied before the shift. *)
Theorem ReadChannelGroup_mask_then_shift g s r :
  is_u32 (Mask g) ->
  DiosBaseAddrs s (Port g) = Some r ->
  Dio_ReadChannelGroup g s
  = Some (Z.shiftr (Z.land (IDR r) (Mask g)) (Offset g), s).
Proof.
  intros Hm Hr. rewrite (Dio_ReadChannelGroup_run s g r Hr).
  now rewrite (not_not_u32 (Mask g) Hm).
Qed.

Lemma ReadChannelGroup_mask_then_shift_witness :
  Dio_ReadChannelGroup (LedBar 0) (port_A 0x0154 0) = Some (0x15, port_A 0x0154 0).
Proof.
  apply (ReadChannelGroup_mask_then_shift (LedBar 0) (port_A 0x0154 0)
           (mkRegs 0x0154 0)).
  - unfold is_u32. simpl. lia.
  - reflexivity.
Defined.

End ChannelGroups.

(** ** Channels *)

Section Channels.

Implicit Types (s : RegisterFile) (r : Dio_RegisterType).

(** C4: [Dio_ReadChannel], [Dio_WriteChannel] and [Dio_FlipChannel] take the
    pin of a channel identifier as [ChannelId & 0x0F] and its port as
    [ChannelId >> 4]: the read returns the bit at the pin position of that
    port's input-data register, the write sets or clears the bit at the pin
    position of that port's output-data register, and the flip inverts it. *)
Theorem channel_services_decompose c s r :
  is_u8 c ->
  DiosBaseAddrs s (channel_port c) = Some r ->
  Dio_ReadChannel c s = Some (Z.b2z (Z.testbit (IDR r) (channel_pin c)), s)
  /\ (forall lvl, lvl = STD_LOW \/ lvl = STD_HIGH ->
        exists r',
          Dio_WriteChannel c lvl s
          = Some (tt, <[Z.to_nat (channel_port c) := r']> s)
          /\ IDR r' = IDR r
          /\ forall i, 0 <= i < 32 ->
               Z.testbit (ODR r') i
               = if i =? channel_pin c then lvl =? STD_HIGH
                 else Z.testbit (ODR r) i)
  /\ (exists r',
        Dio_FlipChannel c s
        = Some (Z.b2z (Z.testbit (IDR r) (channel_pin c)),
                <[Z.to_nat (channel_port c) := r']> s)
        /\ IDR r' = IDR r
        /\ forall i,
             Z.testbit (ODR r') i
             = if i =? channel_pin c then negb (Z.testbit (ODR r) i)
               else Z.testbit (ODR r) i).
Proof.
  intros Hc Hr. pose proof (channel_pin_range c) as Hpin.
  split; [| split].
  - now apply Dio_ReadChannel_run.
  - intros lvl Hlvl. eexists. split; [| split].
    + exact (Dio_WriteChannel_run s c lvl r Hc Hr).
    + reflexivity.
    + intros i Hi. simpl. destruct Hlvl as [-> | ->].
      * now rewrite PutBit_low_testbit by lia.
      * now rewrite PutBit_high_testbit by lia.
  - eexists. split; [| split].
    + exact (Dio_FlipChannel_run s c r Hc Hr).
    + reflexivity.
    + intros i. simpl. apply Toggle_testbit. lia.
Qed.

Lemma channel_services_decompose_witness :
  Dio_ReadChannel 0x15 (port_A 0 0 ++ port_A 0x0020 0x0020)
  = Some (STD_HIGH, port_A 0 0 ++ port_A 0x0020 0x0020).
Proof.
  apply (proj1 (channel_services_decompose 0x15
                  (port_A 0 0 ++ port_A 0x0020 0x0020) (mkRegs 0x0020 0x0020)
                  ltac:(unfold is_u8; lia) eq_refl)).
Defined.

(** C5: for every channel identifier [c], after [Dio_WriteChannel c
    STD_HIGH], the pins following the output register, [Dio_ReadChannel c]
    returns [STD_HIGH], the bit [c & 0x0F] of [Dio_ReadPort (c >> 4)] is 1 and
    every other bit of that port has the value it had before the call. *)
Theorem WriteChannel_high_then_read c s r :
  is_u8 c ->
  DiosBaseAddrs s (channel_port c) = Some r ->
  exists pl,
    write_high_read c s
    = Some ((STD_HIGH, pl),
            <[Z.to_nat (channel_port c) := {| IDR := pl; ODR := pl |}]> s)
    /\ Z.testbit pl (channel_pin c) = true
    /\ forall i, i <> channel_pin c ->
                 Z.testbit pl i = Z.testbit (ODR r) i.
Proof.
  intros Hc Hr. pose proof (channel_pin_range c) as Hpin.
  pose proof (channel_port_range c Hc) as Hport.
  set (pl := Bfx_PutBit_u32u8u8 (ODR r) (channel_pin c) STD_HIGH).
  assert (Hbit : Z.testbit pl (channel_pin c) = true).
  { unfold pl. rewrite PutBit_high_testbit by lia.
    now rewrite Z.eqb_refl. }
  exists pl. split; [| split].
  - unfold write_high_read, seq, bind at 1.
    rewrite (Dio_WriteChannel_run s c STD_HIGH r Hc Hr). fold pl.
    pose proof (DiosBaseAddrs_insert s _ r (with_ODR r pl) Hr) as Hr1.
    unfold bind at 1. rewrite (PinsFollowOutput_run _ _ _ Hr1).
    rewrite list_insert_insert_eq.
    pose proof (DiosBaseAddrs_insert s _ r
                  (with_IDR (with_ODR r pl) (ODR (with_ODR r pl))) Hr) as Hr2.
    unfold bind at 1. rewrite (Dio_ReadChannel_run _ c _ Hc Hr2).
    unfold bind, Dio_ReadPort. rewrite (load_IDR_run _ _ _ Hr2).
    unfold ret. simpl. rewrite Hbit. reflexivity.
  - exact Hbit.
  - intros i Hi. unfold pl. rewrite PutBit_high_testbit by lia.
    destruct (Z.eqb_spec i (channel_pin c)); [contradiction | reflexivity].
Qed.

Lemma WriteChannel_high_then_read_witness :
  exists pl,
    write_high_read 0x15 (port_A 0 0 ++ port_A 0x0003 0x0003)
    = Some ((STD_HIGH, pl),
            <[Z.to_nat (channel_port 0x15) := {| IDR := pl; ODR := pl |}]>
              (port_A 0 0 ++ port_A 0x0003 0x0003))
    /\ Z.testbit pl (channel_pin 0x15) = true
    /\ forall i, i <> channel_pin 0x15 ->
                 Z.testbit pl i = Z.testbit 0x0003 i.
Proof.
  apply (WriteChannel_high_then_read 0x15
           (port_A 0 0 ++ port_A 0x0003 0x0003) (mkRegs 0x0003 0x0003)).
  - unfold is_u8. lia.
  - reflexivity.
Defined.

(** C7: for every channel identifier [c], [Dio_FlipChannel c] inverts
    exactly the addressed bit of the port's output-data register and returns
    the input-data bit at that pin as it is after the store, and two calls in
    succession leave the registers as they were. *)
Theorem FlipChannel_involution c s r :
  is_u8 c ->
  DiosBaseAddrs s (channel_port c) = Some r ->
  (exists r1,
     Dio_FlipChannel c s
     = Some (Z.b2z (Z.testbit (IDR r1) (channel_pin c)),
             <[Z.to_nat (channel_port c) := r1]> s)
     /\ IDR r1 = IDR r
     /\ forall i,
          Z.testbit (ODR r1) i
          = if i =? channel_pin c then negb (Z.testbit (ODR r) i)
            else Z.testbit (ODR r) i)
  /\ exists lvl, seq (Dio_FlipChannel c) (Dio_FlipChannel c) s = Some (lvl, s).
Proof.
  intros Hc Hr. pose proof (channel_pin_range c) as Hpin. split.
  - exists (with_ODR r (Z.lxor (ODR r) (2 ^ channel_pin c))).
    split; [| split].
    + exact (Dio_FlipChannel_run s c r Hc Hr).
    + reflexivity.
    + intros i. simpl. apply Toggle_testbit. lia.
  - eexists. unfold seq, bind.
    rewrite (Dio_FlipChannel_run s c r Hc Hr).
    rewrite (Dio_FlipChannel_run _ c _ Hc
               (DiosBaseAddrs_insert s _ r _ Hr)).
    rewrite list_insert_insert_eq. unfold with_ODR at 1. simpl.
    rewrite Toggle_twice.
    destruct (DiosBaseAddrs_Some _ _ _ Hr) as [_ Hl].
    rewrite list_insert_id; [reflexivity |].
    rewrite Hl. now destruct r.
Qed.

Lemma FlipChannel_involution_witness :
  exists lvl,
    seq (Dio_FlipChannel 0x03) (Dio_FlipChannel 0x03) (port_A 0x0008 0x0001)
    = Some (lvl, port_A 0x0008 0x0001).
Proof.
  apply (proj2 (FlipChannel_involution 0x03 (port_A 0x0008 0x0001)
                  (mkRegs 0x0008 0x0001) ltac:(unfold is_u8; lia) eq_refl)).
Defined.

End Channels.

(** ** Ports *)

Section Ports.

Implicit Types (s : RegisterFile) (r : Dio_RegisterType).

(** C6: for every port [p] and every port level [v], [Dio_WritePort p v]
    followed by [Dio_ReadPort p], the pins following the output register,
    returns exactly [v]. *)
Theorem WritePort_then_ReadPort p v s r :
  DiosBaseAddrs s p = Some r ->
  write_read_port p v s
  = Some (v, <[Z.to_nat p := {| IDR := v; ODR := v |}]> s).
Proof.
  intros Hr. unfold write_read_port, seq, bind at 1, Dio_WritePort.
  rewrite (store_ODR_run s p r v Hr).
  pose proof (DiosBaseAddrs_insert s p r (with_ODR r v) Hr) as Hr1.
  unfold bind. rewrite (PinsFollowOutput_run _ _ _ Hr1).
  rewrite list_insert_insert_eq.
  pose proof (DiosBaseAddrs_insert s p r
                (with_IDR (with_ODR r v) (ODR (with_ODR r v))) Hr) as Hr2.
  unfold Dio_ReadPort. rewrite (load_IDR_run _ _ _ Hr2). reflexivity.
Qed.

Lemma WritePort_then_ReadPort_witness :
  write_read_port 0 0xAA55 (port_A 0x0001 0x0002)
  = Some (0xAA55, port_A 0xAA55 0xAA55).
Proof.
  apply (WritePort_then_ReadPort 0 0xAA55 (port_A 0x0001 0x0002)
           (mkRegs 0x0001 0x0002)).
  reflexivity.
Defined.

(** C8: for every port [p], value and mask, after [Dio_MaskedWritePort p
    value mask] every bit position [i] of the port's output-data register
    holds bit [i] of [value] where bit [i] of [mask] is 1 and its value from
    before the call where bit [i] of [mask] is 0. *)
Theorem MaskedWritePort_bits p v m s r :
  DiosBaseAddrs s p = Some r ->
  exists r',
    Dio_MaskedWritePort p v m s = Some (tt, <[Z.to_nat p := r']> s)
    /\ IDR r' = IDR r
    /\ forall i, 0 <= i < 32 ->
         Z.testbit (ODR r') i
         = if Z.testbit m i then Z.testbit v i else Z.testbit (ODR r) i.
Proof.
  intros Hr. eexists. split; [| split].
  - unfold Dio_MaskedWritePort. exact (update_ODR_run s p r _ Hr).
  - reflexivity.
  - intros i Hi. simpl. now apply PutBitsMask_testbit.
Qed.

Lemma MaskedWritePort_bits_witness :
  exists r',
    Dio_MaskedWritePort 0 0x00ff 0x0055 (port_A 0 0xF00F)
    = Some (tt, <[Z.to_nat 0 := r']> (port_A 0 0xF00F))
    /\ IDR r' = 0
    /\ forall i, 0 <= i < 32 ->
         Z.testbit (ODR r') i
         = if Z.testbit 0x0055 i then Z.testbit 0x00ff i
           else Z.testbit 0xF00F i.
Proof.
  apply (MaskedWritePort_bits 0 0x00ff 0x0055 (port_A 0 0xF00F)
           (mkRegs 0 0xF00F)).
  reflexivity.
Defined.

End Ports.

(** ** Reads *)

Section Reads.

Implicit Types (s : RegisterFile) (r : Dio_RegisterType).

(** C10: [Dio_ReadChannel], [Dio_ReadPort] and [Dio_ReadChannelGroup] leave
    every register of every port unchanged: for every argument and every
    content of the registers, the register file after the call is the
    register file before the call. *)
Theorem reads_leave_registers s s' :
  (exists c v, Dio_ReadChannel c s = Some (v, s'))
  \/ (exists p v, Dio_ReadPort p s = Some (v, s'))
  \/ (exists g v, Dio_ReadChannelGroup g s = Some (v, s')) ->
  s' = s.
Proof.
  intros [(c & v & H) | [(p & v & H) | (g & v & H)]].
  - unfold Dio_ReadChannel, bind in H.
    destruct (load_IDR _ s) as [[idr s1] |] eqn:Hload; [| discriminate H].
    apply load_IDR_pure in Hload. unfold ret in H.
    injection H as _ <-. exact Hload.
  - unfold Dio_ReadPort in H. now apply load_IDR_pure in H.
  - unfold Dio_ReadChannelGroup, bind in H.
    destruct (load_IDR _ s) as [[idr s1] |] eqn:Hload; [| discriminate H].
    apply load_IDR_pure in Hload. unfold ret in H.
    injection H as _ <-. exact Hload.
Qed.

Lemma reads_leave_registers_witness :
  Dio_ReadChannel 0x03 (port_A 0x0008 0x0001)
  = Some (STD_HIGH, port_A 0x0008 0x0001)
  /\ port_A 0x0008 0x0001 = port_A 0x0008 0x0001.
Proof.
  split; [reflexivity |].
  apply (reads_leave_registers (port_A 0x0008 0x0001) (port_A 0x0008 0x0001)).
  left. exists 0x03, STD_HIGH. reflexivity.
Defined.

End Reads.

(** ** Further properties: 32-bit values *)

Section Words.

Lemma uint32_is_u32 (z : Z) : is_u32 (uint32 z).
Proof. unfold is_u32, uint32. apply Z.mod_pos_bound. lia. Qed.

(** A value without bits at the positions 32 and above is a 32-bit value. *)
Lemma high_bits_clear_is_u32 (x : Z) :
  (forall i, 32 <= i -> Z.testbit x i = false) -> is_u32 x.
Proof.
  intros Hhigh. assert (Hx : x = uint32 x).
  { apply Z.bits_inj'. intros i Hi.
    destruct (Z_lt_ge_dec i 32) as [Hlt | Hge].
    - now rewrite testbit_uint32_low.
    - rewrite testbit_uint32_high by lia. apply Hhigh. lia. }
  rewrite Hx. apply uint32_is_u32.
Qed.

Lemma is_u32_lor (a b : Z) : is_u32 a -> is_u32 b -> is_u32 (Z.lor a b).
Proof.
  intros Ha Hb. apply high_bits_clear_is_u32. intros i Hi.
  now rewrite Z.lor_spec, (testbit_u32_high a), (testbit_u32_high b).
Qed.

Lemma is_u32_lxor (a b : Z) : is_u32 a -> is_u32 b -> is_u32 (Z.lxor a b).
Proof.
  intros Ha Hb. apply high_bits_clear_is_u32. intros i Hi.
  now rewrite Z.lxor_spec, (testbit_u32_high a), (testbit_u32_high b).
Qed.

Lemma is_u32_land_l (a b : Z) : is_u32 a -> is_u32 (Z.land a b).
Proof.
  intros Ha. apply high_bits_clear_is_u32. intros i Hi.
  now rewrite Z.land_spec, (testbit_u32_high a).
Qed.

Lemma is_u32_land_r (a b : Z) : is_u32 b -> is_u32 (Z.land a b).
Proof. intros Hb. rewrite Z.land_comm. now apply is_u32_land_l. Qed.

Lemma not_u32_is_u32 (z : Z) : is_u32 (not_u32 z).
Proof. apply uint32_is_u32. Qed.

Lemma shl_u32_is_u32 (z n : Z) : is_u32 (shl_u32 z n).
Proof. apply uint32_is_u32. Qed.

Lemma land_ones32 (z : Z) : is_u32 z -> Z.land z 0xFFFFFFFF = z.
Proof.
  intros Hz. change 0xFFFFFFFF with (Z.ones 32).
  rewrite Z.land_ones by lia. now apply uint32_id.
Qed.

Lemma with_ODR_same (r : Dio_RegisterType) : with_ODR r (ODR r) = r.
Proof. now destruct r. Qed.

End Words.

(** ** Further properties: the services that store *)

Section Stores.

Implicit Types (s : RegisterFile) (r : Dio_RegisterType) (w : Dio_write).

Lemma load_IDR_none s p : DiosBaseAddrs s p = None -> load_IDR p s = None.
Proof. intros H. unfold load_IDR. now rewrite H. Qed.

Lemma store_ODR_none s p v : DiosBaseAddrs s p = None -> store_ODR p v s = None.
Proof. intros H. unfold store_ODR. now rewrite H. Qed.

Lemma update_ODR_none s p f :
  DiosBaseAddrs s p = None -> update_ODR p f s = None.
Proof. intros H. unfold update_ODR, bind, load_ODR. now rewrite H. Qed.

Lemma Dio_WriteChannel_none s c lvl :
  is_u8 c -> DiosBaseAddrs s (channel_port c) = None ->
  Dio_WriteChannel c lvl s = None.
Proof.
  intros Hc H. unfold Dio_WriteChannel.
  rewrite Pin_of_ChannelId, Port_of_ChannelId by exact Hc.
  now apply update_ODR_none.
Qed.

Lemma Dio_FlipChannel_none s c :
  is_u8 c -> DiosBaseAddrs s (channel_port c) = None ->
  Dio_FlipChannel c s = None.
Proof.
  intros Hc H. unfold Dio_FlipChannel.
  rewrite Pin_of_ChannelId, Port_of_ChannelId by exact Hc.
  unfold seq, bind at 1. now rewrite update_ODR_none.
Qed.

Lemma Dio_WriteChannelGroup_none s g v :
  DiosBaseAddrs s (Port g) = None -> Dio_WriteChannelGroup g v s = None.
Proof.
  intros H. unfold Dio_WriteChannelGroup, seq, bind at 1.
  now rewrite update_ODR_none.
Qed.

(** A call that returns found the block of its port. *)
Lemma run_write_block w s x s' :
  typed_call w -> run_write w s = Some (x, s') ->
  exists r, DiosBaseAddrs s (target_port w) = Some r.
Proof.
  intros Ht Hrun.
  destruct (DiosBaseAddrs s (target_port w)) as [r |] eqn:Hblock;
    [now exists r |].
  exfalso. destruct w as [c lvl | p v | g v | c | p v m]; simpl in *.
  - rewrite Dio_WriteChannel_none in Hrun by tauto. discriminate Hrun.
  - unfold Dio_WritePort in Hrun.
    rewrite store_ODR_none in Hrun by exact Hblock. discriminate Hrun.
  - rewrite Dio_WriteChannelGroup_none in Hrun by exact Hblock.
    discriminate Hrun.
  - unfold bind in Hrun.
    rewrite Dio_FlipChannel_none in Hrun by tauto. discriminate Hrun.
  - unfold Dio_MaskedWritePort in Hrun.
    rewrite update_ODR_none in Hrun by exact Hblock. discriminate Hrun.
Qed.

(** A call stores one value to the output-data register of its port, a
    32-bit value when the register held one. *)
Lemma run_write_shape w s r :
  typed_call w -> DiosBaseAddrs s (target_port w) = Some r ->
  exists o',
    run_write w s
    = Some (tt, <[Z.to_nat (target_port w) := with_ODR r o']> s)
    /\ (is_u32 (ODR r) -> is_u32 o').
Proof.
  intros Ht Hr. destruct w as [c lvl | p v | g v | c | p v m]; simpl in *.
  - destruct Ht as [Hc _]. eexists. split.
    + exact (Dio_WriteChannel_run s c lvl r Hc Hr).
    + intros Ho. unfold Bfx_PutBit_u32u8u8. destruct (lvl =? 0).
      * now apply is_u32_land_l.
      * apply is_u32_lor; [exact Ho | apply shl_u32_is_u32].
  - exists v. split; [| tauto].
    unfold Dio_WritePort. now apply store_ODR_run.
  - eexists. split.
    + exact (Dio_WriteChannelGroup_run s g v r Hr).
    + intros Ho. apply is_u32_lor; [| apply shl_u32_is_u32].
      now apply is_u32_land_l.
  - eexists. split.
    + unfold bind. rewrite (Dio_FlipChannel_run s c r Ht Hr). reflexivity.
    + intros Ho. apply is_u32_lxor; [exact Ho |].
      pose proof (channel_pin_range c) as Hpin.
      rewrite <- shl_u32_one by lia. apply shl_u32_is_u32.
  - eexists. split.
    + unfold Dio_MaskedWritePort. exact (update_ODR_run s p r _ Hr).
    + intros Ho. unfold Bfx_PutBitsMask_u32u32u32.
      apply is_u32_lor; apply is_u32_land_l; tauto.
Qed.

(** X2: a store service that returns has changed at most the output-data
    register of the port it addresses: the register file keeps its number of
    blocks, the blocks of all other ports are the same, and the input-data
    register of the addressed port is the same. *)
Theorem writes_touch_one_ODR w s x s' :
  typed_call w ->
  run_write w s = Some (x, s') ->
  only_ODR_of (target_port w) s s'.
Proof.
  intros Ht Hrun.
  destruct (run_write_block w s x s' Ht Hrun) as [r Hr].
  destruct (run_write_shape w s r Ht Hr) as (o' & Hshape & _).
  rewrite Hshape in Hrun. injection Hrun as _ <-.
  destruct (DiosBaseAddrs_Some _ _ _ Hr) as [Hp _].
  split; [| split].
  - apply length_insert.
  - intros q Hq. apply DiosBaseAddrs_insert_other; [exact Hp | congruence].
  - rewrite (DiosBaseAddrs_insert s _ r _ Hr), Hr. reflexivity.
Qed.

Lemma writes_touch_one_ODR_witness :
  only_ODR_of 1 (port_A 0 0 ++ port_A 0x0003 0x0003)
              (port_A 0 0 ++ port_A 0x0003 0x0023).
Proof.
  apply (writes_touch_one_ODR (Call_WriteChannel 0x15 STD_HIGH)
           (port_A 0 0 ++ port_A 0x0003 0x0003) tt).
  - unfold typed_call, is_u8, STD_HIGH. lia.
  - reflexivity.
Defined.

(** X3: the store services keep the registers 32-bit: when every register
    holds a 32-bit value and the arguments are values of their C types, every
    register holds a 32-bit value after the call. *)
Theorem writes_keep_registers_u32 w s x s' :
  typed_call w ->
  registers_u32 s ->
  run_write w s = Some (x, s') ->
  registers_u32 s'.
Proof.
  intros Ht Hwf Hrun.
  destruct (run_write_block w s x s' Ht Hrun) as [r Hr].
  destruct (run_write_shape w s r Ht Hr) as (o' & Hshape & Ho').
  rewrite Hshape in Hrun. injection Hrun as _ <-.
  destruct (DiosBaseAddrs_Some _ _ _ Hr) as [Hp _].
  destruct (Hwf _ _ Hr) as [Hidr Hodr].
  intros q rq Hq. destruct (Z.eq_dec q (target_port w)) as [-> | Hne].
  - rewrite (DiosBaseAddrs_insert s _ r _ Hr) in Hq.
    injection Hq as <-. simpl. auto.
  - rewrite DiosBaseAddrs_insert_other in Hq by (auto; congruence).
    exact (Hwf q rq Hq).
Qed.

Lemma writes_keep_registers_u32_witness :
  registers_u32 (port_A 0 0xFFFFFFFE).
Proof.
  apply (writes_keep_registers_u32 (Call_FlipChannel 0x00)
           (port_A 0 0xFFFFFFFF) tt).
  - unfold typed_call, is_u8. lia.
  - intros q r Hq. unfold DiosBaseAddrs, port_A in Hq.
    destruct (0 <=? q); [| discriminate Hq].
    destruct (Z.to_nat q) as [| n]; simpl in Hq.
    + injection Hq as <-. unfold is_u32. simpl. lia.
    + destruct n; discriminate Hq.
  - reflexivity.
Defined.

(** X1: of two successive [Dio_WritePort] on the same port the last one
    wins: the register file is the one the second call alone gives (so that
    writing the same value twice is the same as writing it once). *)
Theorem WritePort_last_write_wins p v1 v2 s :
  seq (Dio_WritePort p v1) (Dio_WritePort p v2) s = Dio_WritePort p v2 s.
Proof.
  unfold seq, bind, Dio_WritePort.
  destruct (DiosBaseAddrs s p) as [r |] eqn:Hr.
  - rewrite (store_ODR_run s p r v1 Hr).
    rewrite (store_ODR_run _ p _ v2 (DiosBaseAddrs_insert s p r _ Hr)).
    rewrite (store_ODR_run s p r v2 Hr).
    now rewrite list_insert_insert_eq.
  - now rewrite !store_ODR_none.
Qed.

End Stores.

(** ** Further properties: channels *)

Section ChannelLaws.

Implicit Types (s : RegisterFile) (r : Dio_RegisterType).

(** The bits of a register after [Bfx_PutBit_u32u8u8], at every position. *)
Lemma PutBit_testbit (o n lvl i : Z) :
  0 <= n < 32 -> 0 <= i ->
  Z.testbit (Bfx_PutBit_u32u8u8 o n lvl) i
  = if lvl =? 0 then (i <? 32) && negb (i =? n) && Z.testbit o i
    else (i =? n) || Z.testbit o i.
Proof.
  intros Hn Hi. unfold Bfx_PutBit_u32u8u8.
  destruct (lvl =? 0); rewrite shl_u32_one by exact Hn.
  - rewrite Z.land_spec. destruct (Z.ltb_spec i 32) as [Hlt | Hge].
    + rewrite testbit_not_u32, pow2_testbit by lia.
      now destruct (i =? n), (Z.testbit o i).
    + unfold not_u32. rewrite testbit_uint32_high by lia.
      apply andb_false_r.
  - rewrite Z.lor_spec, pow2_testbit by lia. apply orb_comm.
Qed.

Lemma PutBit_commute (o n1 n2 l1 l2 : Z) :
  0 <= n1 < 32 -> 0 <= n2 < 32 -> n1 <> n2 ->
  Bfx_PutBit_u32u8u8 (Bfx_PutBit_u32u8u8 o n1 l1) n2 l2
  = Bfx_PutBit_u32u8u8 (Bfx_PutBit_u32u8u8 o n2 l2) n1 l1.
Proof.
  intros H1 H2 Hne. apply Z.bits_inj'. intros i Hi.
  rewrite !PutBit_testbit by lia.
  destruct (l1 =? 0), (l2 =? 0), (Z.ltb_spec i 32),
    (Z.eqb_spec i n1), (Z.eqb_spec i n2), (Z.testbit o i);
    simpl; first [reflexivity | exfalso; lia].
Qed.

Lemma Toggle_as_PutBit (o n : Z) :
  is_u32 o -> 0 <= n < 32 ->
  Z.lxor o (2 ^ n) = Bfx_PutBit_u32u8u8 o n (1 - Z.b2z (Z.testbit o n)).
Proof.
  intros Ho Hn. apply Z.bits_inj'. intros i Hi.
  rewrite PutBit_testbit, Z.lxor_spec, pow2_testbit by lia.
  destruct (Z.eqb_spec i n) as [-> | Hne].
  - destruct (Z.testbit o n); simpl; [| reflexivity].
    now rewrite andb_false_r.
  - destruct (Z.testbit o n); simpl; rewrite xorb_false_r.
    + destruct (Z.ltb_spec i 32); [reflexivity |].
      simpl. now apply testbit_u32_high.
    + reflexivity.
Qed.

(** An identifier is its port and its pin. *)
Lemma channel_id_split (c : Z) : c = 16 * channel_port c + channel_pin c.
Proof.
  unfold channel_port, channel_pin. change 0x0F with (Z.ones 4).
  rewrite Z.land_ones, Z.shiftr_div_pow2 by lia.
  change (2 ^ 4) with 16. apply Z.div_mod. lia.
Qed.

(** X4: for both levels, [Dio_WriteChannel c lvl] followed by
    [Dio_ReadChannel c], the pins following the output register, returns
    [lvl], and the other 31 bits of the output-data register keep their
    value. *)
Theorem WriteChannel_then_ReadChannel c lvl s r :
  is_u8 c ->
  lvl = STD_LOW \/ lvl = STD_HIGH ->
  DiosBaseAddrs s (channel_port c) = Some r ->
  exists pl,
    write_level_read c lvl s
    = Some (lvl, <[Z.to_nat (channel_port c) := {| IDR := pl; ODR := pl |}]> s)
    /\ forall i, 0 <= i < 32 -> i <> channel_pin c ->
                 Z.testbit pl i = Z.testbit (ODR r) i.
Proof.
  intros Hc Hlvl Hr. pose proof (channel_pin_range c) as Hpin.
  set (pl := Bfx_PutBit_u32u8u8 (ODR r) (channel_pin c) lvl).
  assert (Hbit : Z.b2z (Z.testbit pl (channel_pin c)) = lvl).
  { unfold pl. rewrite PutBit_testbit by lia.
    rewrite Z.eqb_refl. destruct Hlvl as [-> | ->]; simpl.
    - now rewrite andb_false_r.
    - reflexivity. }
  exists pl. split.
  - unfold write_level_read, seq, bind at 1.
    rewrite (Dio_WriteChannel_run s c lvl r Hc Hr). fold pl.
    pose proof (DiosBaseAddrs_insert s _ r (with_ODR r pl) Hr) as Hr1.
    unfold bind. rewrite (PinsFollowOutput_run _ _ _ Hr1).
    rewrite list_insert_insert_eq.
    pose proof (DiosBaseAddrs_insert s _ r
                  (with_IDR (with_ODR r pl) (ODR (with_ODR r pl))) Hr) as Hr2.
    rewrite (Dio_ReadChannel_run _ c _ Hc Hr2). simpl.
    rewrite Hbit. reflexivity.
  - intros i Hi Hne. unfold pl. rewrite PutBit_testbit by lia.
    destruct (Z.eqb_spec i (channel_pin c)); [contradiction |].
    destruct (Z.ltb_spec i 32); [| lia].
    now destruct (lvl =? 0).
Qed.

Lemma WriteChannel_then_ReadChannel_witness :
  exists pl,
    write_level_read 0x01 STD_LOW (port_A 0x0003 0x0003)
    = Some (STD_LOW,
            <[Z.to_nat (channel_port 0x01) := {| IDR := pl; ODR := pl |}]>
              (port_A 0x0003 0x0003))
    /\ forall i, 0 <= i < 32 -> i <> channel_pin 0x01 ->
                 Z.testbit pl i = Z.testbit 0x0003 i.
Proof.
  apply (WriteChannel_then_ReadChannel 0x01 STD_LOW (port_A 0x0003 0x0003)
           (mkRegs 0x0003 0x0003)).
  - unfold is_u8. lia.
  - left. reflexivity.
  - reflexivity.
Defined.

(** X5: [Dio_FlipChannel c] followed by [Dio_ReadChannel c], the pins
    following the output register, returns the opposite of the bit the
    output-data register held at the pin before the flip. *)
Theorem FlipChannel_then_ReadChannel c s r :
  is_u8 c ->
  DiosBaseAddrs s (channel_port c) = Some r ->
  exists s',
    flip_read c s
    = Some (Z.b2z (negb (Z.testbit (ODR r) (channel_pin c))), s').
Proof.
  intros Hc Hr. pose proof (channel_pin_range c) as Hpin.
  eexists. unfold flip_read, seq, bind at 1.
  rewrite (Dio_FlipChannel_run s c r Hc Hr).
  pose proof (DiosBaseAddrs_insert s _ r
                (with_ODR r (Z.lxor (ODR r) (2 ^ channel_pin c))) Hr) as Hr1.
  unfold bind. rewrite (PinsFollowOutput_run _ _ _ Hr1).
  rewrite list_insert_insert_eq.
  match goal with
  | |- context [<[_ := ?blk]> s] =>
      pose proof (DiosBaseAddrs_insert s _ r blk Hr) as Hr2
  end.
  rewrite (Dio_ReadChannel_run _ c _ Hc Hr2). simpl.
  rewrite Toggle_testbit, Z.eqb_refl by lia. reflexivity.
Qed.

Lemma FlipChannel_then_ReadChannel_witness :
  exists s', flip_read 0x01 (port_A 0x0003 0x0003) = Some (STD_LOW, s').
Proof.
  apply (FlipChannel_then_ReadChannel 0x01 (port_A 0x0003 0x0003)
           (mkRegs 0x0003 0x0003)).
  - unfold is_u8. lia.
  - reflexivity.
Defined.

(** X6: whatever the registers hold, a value returned by [Dio_ReadChannel]
    or by [Dio_FlipChannel] is [STD_LOW] or [STD_HIGH]. *)
Theorem channel_reads_return_a_level c s v s' :
  Dio_ReadChannel c s = Some (v, s') \/ Dio_FlipChannel c s = Some (v, s') ->
  v = STD_LOW \/ v = STD_HIGH.
Proof.
  pose proof (channel_pin_range c) as Hpin.
  assert (Hget : forall d, Bfx_GetBit_u32u8_u8 d (channel_pin c) = STD_LOW
                           \/ Bfx_GetBit_u32u8_u8 d (channel_pin c) = STD_HIGH).
  { intros d. rewrite GetBit_testbit by lia.
    destruct (Z.testbit d (channel_pin c)); [now right | now left]. }
  intros [H | H].
  - unfold Dio_ReadChannel in H. rewrite Pin_of_ChannelId in H.
    unfold bind, ret in H.
    destruct (load_IDR _ s) as [[idr s1] |]; [| discriminate H].
    injection H as <- _. apply Hget.
  - unfold Dio_FlipChannel in H. rewrite Pin_of_ChannelId in H.
    unfold seq, bind, ret in H.
    destruct (update_ODR _ _ s) as [[u s1] |]; [| discriminate H].
    destruct (load_IDR _ s1) as [[idr s2] |]; [| discriminate H].
    injection H as <- _. apply Hget.
Qed.

Lemma channel_reads_return_a_level_witness :
  STD_HIGH = STD_LOW \/ STD_HIGH = STD_HIGH.
Proof.
  apply (channel_reads_return_a_level 0x03 (port_A 0x0008 0x0001)
           STD_HIGH (port_A 0x0008 0x0001)).
  left. reflexivity.
Defined.

(** X7: [Dio_ReadChannel c] is the bit [c & 0x0F] of what [Dio_ReadPort]
    returns for the port [c >> 4], also when that port has no block. *)
Theorem ReadChannel_is_bit_of_ReadPort c s :
  is_u8 c ->
  Dio_ReadChannel c s
  = bind (Dio_ReadPort (channel_port c))
         (fun pl => ret (Z.b2z (Z.testbit pl (channel_pin c)))) s.
Proof.
  intros Hc. pose proof (channel_pin_range c) as Hpin.
  unfold Dio_ReadChannel.
  rewrite Pin_of_ChannelId, Port_of_ChannelId by exact Hc.
  unfold bind, Dio_ReadPort.
  destruct (load_IDR (channel_port c) s) as [[idr s1] |]; [| reflexivity].
  unfold ret. now rewrite GetBit_testbit by lia.
Qed.

Lemma ReadChannel_is_bit_of_ReadPort_witness :
  Dio_ReadChannel 0x03 (port_A 0x0008 0x0001)
  = bind (Dio_ReadPort (channel_port 0x03))
         (fun pl => ret (Z.b2z (Z.testbit pl (channel_pin 0x03))))
         (port_A 0x0008 0x0001).
Proof.
  apply (ReadChannel_is_bit_of_ReadPort 0x03 (port_A 0x0008 0x0001)).
  unfold is_u8. lia.
Defined.

(** X8: on a 32-bit output-data register, [Dio_FlipChannel c] leaves the
    registers as [Dio_WriteChannel] does when it is given the opposite of the
    bit the output-data register holds at the pin. *)
Theorem FlipChannel_as_WriteChannel c s r :
  is_u8 c ->
  DiosBaseAddrs s (channel_port c) = Some r ->
  is_u32 (ODR r) ->
  exists lvl s',
    Dio_FlipChannel c s = Some (lvl, s')
    /\ Dio_WriteChannel c (1 - Z.b2z (Z.testbit (ODR r) (channel_pin c))) s
       = Some (tt, s').
Proof.
  intros Hc Hr Ho. pose proof (channel_pin_range c) as Hpin.
  do 2 eexists. split.
  - exact (Dio_FlipChannel_run s c r Hc Hr).
  - rewrite (Dio_WriteChannel_run s c _ r Hc Hr).
    now rewrite <- Toggle_as_PutBit by (auto; lia).
Qed.

Lemma FlipChannel_as_WriteChannel_witness :
  exists lvl s',
    Dio_FlipChannel 0x01 (port_A 0x0003 0x0003) = Some (lvl, s')
    /\ Dio_WriteChannel 0x01 STD_LOW (port_A 0x0003 0x0003) = Some (tt, s').
Proof.
  apply (FlipChannel_as_WriteChannel 0x01 (port_A 0x0003 0x0003)
           (mkRegs 0x0003 0x0003)).
  - unfold is_u8. lia.
  - reflexivity.
  - unfold is_u32. simpl. lia.
Defined.

End ChannelLaws.

(** ** Further properties: independent channels *)

Section ChannelIndependence.

Implicit Types (s : RegisterFile) (r : Dio_RegisterType).

Lemma Dio_WriteChannel_run_at s c lvl r p :
  is_u8 c -> channel_port c = p -> DiosBaseAddrs s p = Some r ->
  Dio_WriteChannel c lvl s
  = Some (tt, <[Z.to_nat p :=
                  with_ODR r (Bfx_PutBit_u32u8u8 (ODR r) (channel_pin c) lvl)]> s).
Proof. intros Hc <- Hr. now apply Dio_WriteChannel_run. Qed.

(** X9: writes to two different channels commute: in either order they give
    the same register file, or both orders meet a port without a block. *)
Theorem WriteChannel_commute c1 c2 l1 l2 s :
  is_u8 c1 -> is_u8 c2 -> c1 <> c2 ->
  seq (Dio_WriteChannel c1 l1) (Dio_WriteChannel c2 l2) s
  = seq (Dio_WriteChannel c2 l2) (Dio_WriteChannel c1 l1) s.
Proof.
  intros H1 H2 Hne.
  pose proof (channel_pin_range c1) as Hpin1.
  pose proof (channel_pin_range c2) as Hpin2.
  pose proof (channel_port_range c1 H1) as Hport1.
  pose proof (channel_port_range c2 H2) as Hport2.
  unfold seq, bind.
  destruct (Z.eq_dec (channel_port c1) (channel_port c2)) as [Hp | Hp].
  - assert (Hpins : channel_pin c1 <> channel_pin c2).
    { intros Hq. apply Hne.
      rewrite (channel_id_split c1), (channel_id_split c2). congruence. }
    destruct (DiosBaseAddrs s (channel_port c1)) as [r |] eqn:Hr.
    + pose proof (eq_sym Hp) as Hp'.
      rewrite (Dio_WriteChannel_run_at s c1 l1 r _ H1 eq_refl Hr).
      rewrite (Dio_WriteChannel_run_at s c2 l2 r _ H2 Hp' Hr).
      rewrite (Dio_WriteChannel_run_at _ c2 l2 _ _ H2 Hp'
                 (DiosBaseAddrs_insert s _ r _ Hr)).
      rewrite (Dio_WriteChannel_run_at _ c1 l1 _ _ H1 eq_refl
                 (DiosBaseAddrs_insert s _ r _ Hr)).
      rewrite !list_insert_insert_eq. unfold with_ODR. simpl.
      rewrite (PutBit_commute (ODR r)) by lia. reflexivity.
    + assert (Hr' : DiosBaseAddrs s (channel_port c2) = None)
        by (rewrite <- Hp; exact Hr).
      now rewrite !Dio_WriteChannel_none.
  - destruct (DiosBaseAddrs s (channel_port c1)) as [r1 |] eqn:Hr1;
      destruct (DiosBaseAddrs s (channel_port c2)) as [r2 |] eqn:Hr2.
    + rewrite (Dio_WriteChannel_run s c1 l1 r1 H1 Hr1).
      rewrite (Dio_WriteChannel_run s c2 l2 r2 H2 Hr2).
      rewrite (Dio_WriteChannel_run _ c2 l2 r2 H2)
        by (rewrite DiosBaseAddrs_insert_other by lia; exact Hr2).
      rewrite (Dio_WriteChannel_run _ c1 l1 r1 H1)
        by (rewrite DiosBaseAddrs_insert_other by lia; exact Hr1).
      rewrite list_insert_insert_ne by lia. reflexivity.
    + rewrite (Dio_WriteChannel_run s c1 l1 r1 H1 Hr1).
      rewrite (Dio_WriteChannel_none s c2 l2 H2 Hr2).
      apply Dio_WriteChannel_none; [exact H2 |].
      rewrite DiosBaseAddrs_insert_other by lia. exact Hr2.
    + rewrite (Dio_WriteChannel_none s c1 l1 H1 Hr1).
      rewrite (Dio_WriteChannel_run s c2 l2 r2 H2 Hr2).
      symmetry. apply Dio_WriteChannel_none; [exact H1 |].
      rewrite DiosBaseAddrs_insert_other by lia. exact Hr1.
    + now rewrite !Dio_WriteChannel_none.
Qed.

Lemma WriteChannel_commute_witness :
  seq (Dio_WriteChannel 0x01 STD_HIGH) (Dio_WriteChannel 0x03 STD_LOW)
      (port_A 0 0x0008)
  = seq (Dio_WriteChannel 0x03 STD_LOW) (Dio_WriteChannel 0x01 STD_HIGH)
        (port_A 0 0x0008).
Proof.
  apply (WriteChannel_commute 0x01 0x03 STD_HIGH STD_LOW (port_A 0 0x0008));
    unfold is_u8; lia.
Defined.

(** X10: a channel identifier addresses one of the ports 0..15: on a
    register file of at least 16 blocks the three channel services return
    for every 8-bit identifier. *)
Theorem channel_services_need_16_ports c s :
  is_u8 c ->
  (16 <= length s)%nat ->
  (exists v, Dio_ReadChannel c s = Some (v, s))
  /\ (forall lvl, exists s', Dio_WriteChannel c lvl s = Some (tt, s'))
  /\ (exists v s', Dio_FlipChannel c s = Some (v, s')).
Proof.
  intros Hc Hlen. pose proof (channel_port_range c Hc) as Hport.
  assert (Hblock : exists r, DiosBaseAddrs s (channel_port c) = Some r).
  { unfold DiosBaseAddrs. destruct (Z.leb_spec 0 (channel_port c)); [| lia].
    apply lookup_lt_is_Some. lia. }
  destruct Hblock as [r Hr]. split; [| split].
  - eexists. exact (Dio_ReadChannel_run s c r Hc Hr).
  - intros lvl. eexists. exact (Dio_WriteChannel_run s c lvl r Hc Hr).
  - do 2 eexists. exact (Dio_FlipChannel_run s c r Hc Hr).
Qed.

Lemma channel_services_need_16_ports_witness :
  exists v, Dio_ReadChannel 0xFF (zero_ports 16) = Some (v, zero_ports 16).
Proof.
  apply (channel_services_need_16_ports 0xFF (zero_ports 16)).
  - unfold is_u8. lia.
  - simpl. lia.
Defined.

End ChannelIndependence.

(** ** Further properties: channel groups and masked writes *)

Section GroupLaws.

Implicit Types (s : RegisterFile) (r : Dio_RegisterType).

(** The register after two group writes through the same descriptor. *)
Lemma group_written_twice (o m k1 k2 : Z) :
  (forall i, 0 <= i < 32 -> Z.testbit k1 i = true ->
             Z.testbit m i = true \/ Z.testbit k2 i = true) ->
  is_u32 k1 ->
  Z.lor (Z.land (Z.lor (Z.land o (not_u32 m)) k1) (not_u32 m)) k2
  = Z.lor (Z.land o (not_u32 m)) k2.
Proof.
  intros Hfit Hk1. apply Z.bits_inj'. intros i Hi.
  rewrite !Z.lor_spec, !Z.land_spec, Z.lor_spec, Z.land_spec.
  destruct (Z.ltb_spec i 32) as [Hlt | Hge].
  - rewrite testbit_not_u32 by lia. specialize (Hfit i (conj Hi Hlt)).
    destruct (Z.testbit k1 i).
    + destruct (Hfit eq_refl) as [-> | ->]; simpl.
      * now rewrite !andb_false_r.
      * now rewrite !orb_true_r.
    + now rewrite orb_false_r, <- andb_assoc, andb_diag.
  - rewrite (testbit_u32_high k1 i Hk1) by lia.
    now rewrite orb_false_r, <- andb_assoc, andb_diag.
Qed.

Lemma WriteChannelGroup_twice g v1 v2 s :
  (forall i, 0 <= i < 32 ->
     Z.testbit (shl_u32 v1 (Offset g)) i = true ->
     Z.testbit (Mask g) i = true
     \/ Z.testbit (shl_u32 v2 (Offset g)) i = true) ->
  seq (Dio_WriteChannelGroup g v1) (Dio_WriteChannelGroup g v2) s
  = Dio_WriteChannelGroup g v2 s.
Proof.
  intros Hfit. unfold seq, bind.
  destruct (DiosBaseAddrs s (Port g)) as [r |] eqn:Hr.
  - rewrite (Dio_WriteChannelGroup_run s g v1 r Hr).
    match goal with
    | |- context [<[_ := ?blk]> s] =>
        rewrite (Dio_WriteChannelGroup_run _ g v2 blk
                   (DiosBaseAddrs_insert s _ r blk Hr))
    end.
    rewrite (Dio_WriteChannelGroup_run s g v2 r Hr).
    rewrite list_insert_insert_eq. unfold with_ODR. simpl.
    rewrite group_written_twice by (auto using shl_u32_is_u32).
    reflexivity.
  - now rewrite !Dio_WriteChannelGroup_none.
Qed.

(** X11: [Dio_WriteChannelGroup] is idempotent: written twice in a row
    with the same descriptor and level, it leaves the registers as it does
    written once, for every descriptor and level. *)
Theorem WriteChannelGroup_idempotent g v s :
  seq (Dio_WriteChannelGroup g v) (Dio_WriteChannelGroup g v) s
  = Dio_WriteChannelGroup g v s.
Proof. apply WriteChannelGroup_twice. auto. Qed.

(** X12: of two successive group writes through the same descriptor the last
    wins when the first level, shifted, had no bit outside [Mask]: the
    registers are as the second write alone leaves them. *)
Theorem WriteChannelGroup_last_write_wins g v1 v2 s :
  level_fits g v1 ->
  seq (Dio_WriteChannelGroup g v1) (Dio_WriteChannelGroup g v2) s
  = Dio_WriteChannelGroup g v2 s.
Proof.
  intros Hfit. apply WriteChannelGroup_twice.
  intros i Hi Hb. left. now apply Hfit.
Qed.

Lemma level_fits_LedBarInPlace_0x55 : level_fits (LedBarInPlace 0) 0x55.
Proof.
  intros i Hi.
  change (Bfx_ShiftBitLt_u32u8 0x55 (Offset (LedBarInPlace 0))) with 0x154.
  change (Mask (LedBarInPlace 0)) with 0x3fc.
  assert (Hcases : i = 0 \/ i = 1 \/ i = 2 \/ i = 3 \/ i = 4 \/ i = 5
                   \/ i = 6 \/ i = 7 \/ i = 8 \/ i = 9 \/ 10 <= i < 32)
    by lia.
  repeat (destruct Hcases as [-> | Hcases]; [vm_compute; auto |]).
  intros Hb. exfalso.
  assert (Hhigh : Z.testbit 0x154 i = false).
  { apply (Z.bits_above_log2 0x154 i); [lia |].
    change (Z.log2 0x154) with 8. lia. }
  rewrite Hhigh in Hb. discriminate Hb.
Defined.

Lemma WriteChannelGroup_last_write_wins_witness :
  seq (Dio_WriteChannelGroup (LedBarInPlace 0) 0x55)
      (Dio_WriteChannelGroup (LedBarInPlace 0) 0x2A) (port_A 0 0xF003)
  = Dio_WriteChannelGroup (LedBarInPlace 0) 0x2A (port_A 0 0xF003).
Proof.
  apply (WriteChannelGroup_last_write_wins (LedBarInPlace 0) 0x55 0x2A
           (port_A 0 0xF003)).
  exact level_fits_LedBarInPlace_0x55.
Defined.

Lemma write_read_group_value g v s r :
  is_u32 (Mask g) ->
  DiosBaseAddrs s (Port g) = Some r ->
  exists s',
    write_read_group g v s
    = Some (Z.shiftr (Z.land (shl_u32 v (Offset g)) (Mask g)) (Offset g), s').
Proof.
  intros Hm Hr. eexists.
  rewrite (write_read_group_run s g v r Hr). cbv zeta.
  now rewrite group_read_of_written.
Qed.

(** X13: what [Dio_ReadChannelGroup] reads back after
    [Dio_WriteChannelGroup], the pins following the output register, is the
    shifted level masked with [Mask] and shifted back; it does not depend on
    what the registers held before. *)
Theorem group_read_back g v s r :
  is_u32 (Mask g) ->
  DiosBaseAddrs s (Port g) = Some r ->
  exists s',
    write_read_group g v s
    = Some (Z.shiftr (Z.land (shl_u32 v (Offset g)) (Mask g)) (Offset g), s').
Proof. intros Hm Hr. exact (write_read_group_value g v s r Hm Hr). Qed.

Lemma group_read_back_witness :
  exists s',
    write_read_group (LedBar 0) 0xFF (port_A 0 0xF003) = Some (0x3F, s').
Proof.
  apply (group_read_back (LedBar 0) 0xFF (port_A 0 0xF003) (mkRegs 0 0xF003)).
  - unfold is_u32. simpl. lia.
  - reflexivity.
Defined.

(** X14: the round trip of a channel group: when the level shifted left by
    [Offset] still is a 32-bit value and has no bit outside [Mask],
    [Dio_WriteChannelGroup] followed by [Dio_ReadChannelGroup], the pins
    following the output register, returns the level. *)
Theorem group_round_trip g v s r :
  is_u32 (Mask g) ->
  0 <= Offset g ->
  is_u32 (Z.shiftl v (Offset g)) ->
  Z.land (Z.shiftl v (Offset g)) (Mask g) = Z.shiftl v (Offset g) ->
  DiosBaseAddrs s (Port g) = Some r ->
  exists s', write_read_group g v s = Some (v, s').
Proof.
  intros Hm Hoff Hv Hfit Hr.
  destruct (write_read_group_value g v s r Hm Hr) as [s' Hs']. exists s'.
  rewrite Hs'. unfold shl_u32. rewrite (uint32_id _ Hv), Hfit.
  rewrite Z.shiftr_shiftl_l by lia.
  now rewrite Z.sub_diag, Z.shiftl_0_r.
Qed.

Lemma group_round_trip_witness :
  exists s',
    write_read_group (LedBarInPlace 0) 0xA5 (port_A 0 0xF003)
    = Some (0xA5, s').
Proof.
  apply (group_round_trip (LedBarInPlace 0) 0xA5 (port_A 0 0xF003)
           (mkRegs 0 0xF003)).
  - unfold is_u32. simpl. lia.
  - simpl. lia.
  - split; [vm_compute; discriminate | reflexivity].
  - reflexivity.
  - reflexivity.
Defined.

(** X15: a value returned by [Dio_ReadChannelGroup] has a bit only where,
    [Offset] positions higher, both [Mask] and the input-data register have
    one, and that position is below 32. *)
Theorem ReadChannelGroup_within_mask g s r v s' i :
  0 <= Offset g ->
  DiosBaseAddrs s (Port g) = Some r ->
  Dio_ReadChannelGroup g s = Some (v, s') ->
  0 <= i ->
  Z.testbit v i = true ->
  i + Offset g < 32
  /\ Z.testbit (Mask g) (i + Offset g) = true
  /\ Z.testbit (IDR r) (i + Offset g) = true.
Proof.
  intros Hoff Hr Hrun Hi Hb.
  rewrite (Dio_ReadChannelGroup_run s g r Hr) in Hrun.
  injection Hrun as <- _.
  rewrite Z.shiftr_spec, Z.land_spec in Hb by exact Hi.
  apply andb_true_iff in Hb as [Hidr Hmask].
  destruct (Z.ltb_spec (i + Offset g) 32) as [Hlt | Hge].
  - rewrite !testbit_not_u32 in Hmask by lia.
    rewrite negb_involutive in Hmask. auto.
  - unfold not_u32 at 1 in Hmask.
    rewrite testbit_uint32_high in Hmask by lia. discriminate Hmask.
Qed.

Lemma ReadChannelGroup_within_mask_witness :
  0 + 2 < 32
  /\ Z.testbit 0x00ff (0 + 2) = true
  /\ Z.testbit 0x0154 (0 + 2) = true.
Proof.
  apply (ReadChannelGroup_within_mask (LedBar 0) (port_A 0x0154 0)
           (mkRegs 0x0154 0) 0x15 (port_A 0x0154 0) 0).
  - simpl. lia.
  - reflexivity.
  - reflexivity.
  - lia.
  - reflexivity.
Defined.

(** X16: with all 32 mask bits set, [Dio_MaskedWritePort] is
    [Dio_WritePort]: for a 32-bit level the two calls give the same result on
    every register file. *)
Theorem MaskedWritePort_full_mask p v s :
  is_u32 v ->
  Dio_MaskedWritePort p v 0xFFFFFFFF s = Dio_WritePort p v s.
Proof.
  intros Hv. unfold Dio_MaskedWritePort, Dio_WritePort.
  destruct (DiosBaseAddrs s p) as [r |] eqn:Hr.
  - rewrite (update_ODR_run s p r _ Hr), (store_ODR_run s p r v Hr).
    unfold Bfx_PutBitsMask_u32u32u32.
    change (not_u32 0xFFFFFFFF) with 0.
    now rewrite Z.land_0_r, Z.lor_0_l, land_ones32.
  - now rewrite update_ODR_none, store_ODR_none.
Qed.

Lemma MaskedWritePort_full_mask_witness :
  Dio_MaskedWritePort 0 0xAA55 0xFFFFFFFF (port_A 0 0x0001)
  = Dio_WritePort 0 0xAA55 (port_A 0 0x0001).
Proof.
  apply (MaskedWritePort_full_mask 0 0xAA55 (port_A 0 0x0001)).
  unfold is_u32. lia.
Defined.

(** X17: with an empty mask, [Dio_MaskedWritePort] leaves a register file
    with a 32-bit output-data register exactly as it was, whatever the
    level. *)
Theorem MaskedWritePort_empty_mask p v s r :
  DiosBaseAddrs s p = Some r ->
  is_u32 (ODR r) ->
  Dio_MaskedWritePort p v 0 s = Some (tt, s).
Proof.
  intros Hr Ho. unfold Dio_MaskedWritePort.
  rewrite (update_ODR_run s p r _ Hr). unfold Bfx_PutBitsMask_u32u32u32.
  change (not_u32 0) with 0xFFFFFFFF.
  rewrite Z.land_0_r, Z.lor_0_r, land_ones32 by exact Ho.
  rewrite with_ODR_same.
  destruct (DiosBaseAddrs_Some _ _ _ Hr) as [_ Hl].
  now rewrite list_insert_id.
Qed.

Lemma MaskedWritePort_empty_mask_witness :
  Dio_MaskedWritePort 0 0xAA55 0 (port_A 0 0x0001)
  = Some (tt, port_A 0 0x0001).
Proof.
  apply (MaskedWritePort_empty_mask 0 0xAA55 (port_A 0 0x0001)
           (mkRegs 0 0x0001)).
  - reflexivity.
  - unfold is_u32. simpl. lia.
Defined.

(** X18: the group that covers a whole port (all 32 mask bits, offset 0)
    is the port: writing a 32-bit level through it is [Dio_WritePort], and
    reading a 32-bit input-data register through it is [Dio_ReadPort]. *)
Theorem whole_port_group p v s r :
  is_u32 v ->
  DiosBaseAddrs s p = Some r ->
  is_u32 (IDR r) ->
  Dio_WriteChannelGroup (whole_port p) v s = Dio_WritePort p v s
  /\ Dio_ReadChannelGroup (whole_port p) s = Dio_ReadPort p s.
Proof.
  intros Hv Hr Hidr. split.
  - rewrite (Dio_WriteChannelGroup_run s (whole_port p) v r Hr).
    unfold Dio_WritePort. rewrite (store_ODR_run s p r v Hr). simpl.
    change (not_u32 0xFFFFFFFF) with 0.
    unfold shl_u32. rewrite Z.shiftl_0_r, (uint32_id v Hv).
    now rewrite Z.land_0_r, Z.lor_0_l.
  - rewrite (Dio_ReadChannelGroup_run s (whole_port p) r Hr).
    unfold Dio_ReadPort. rewrite (load_IDR_run s p r Hr). simpl.
    change (not_u32 (not_u32 0xFFFFFFFF)) with 0xFFFFFFFF.
    now rewrite Z.shiftr_0_r, land_ones32.
Qed.

Lemma whole_port_group_witness :
  Dio_WriteChannelGroup (whole_port 0) 0xAA55 (port_A 0x0003 0x0001)
  = Dio_WritePort 0 0xAA55 (port_A 0x0003 0x0001)
  /\ Dio_ReadChannelGroup (whole_port 0) (port_A 0x0003 0x0001)
     = Dio_ReadPort 0 (port_A 0x0003 0x0001).
Proof.
  apply (whole_port_group 0 0xAA55 (port_A 0x0003 0x0001)
           (mkRegs 0x0003 0x0001)).
  - unfold is_u32. lia.
  - reflexivity.
  - unfold is_u32. simpl. lia.
Defined.

End GroupLaws.
